(** * Jetpack client views: the Resource Prompt and the AI Assistant toolbar

    A shallow embedding of two React components,

    - [_inc/client/recommendations/prompts/resource-prompt/index.jsx]
    - [extensions/blocks/ai-assistant/ai-control.js]

    Rendering is a pure function from props to an element tree.  A callback
    is the list of calls it performs, in program order.  JSX conditionals
    [{ c && <X /> }] contribute zero or one child. *)

From Stdlib Require Import String List Bool Arith Lia.
Import ListNotations.
Open Scope string_scope.
Open Scope list_scope.
Set Warnings "-register-all".

(** [{ c && x }] inside a list of JSX children: React renders [false] as
    nothing. *)
Definition when {A : Type} (c : bool) (x : A) : list A :=
  if c then [x] else [].

(** JavaScript [a === b] on strings; [a !== b] is its negation. *)
Definition strict_eq (a b : string) : bool := String.eqb a b.
Definition strict_neq (a b : string) : bool := negb (strict_eq a b).

(** The locale in which [__] returns every message as it is. *)
Definition untranslated (text domain : string) : string := text.

(* ------------------------------------------------------------------ *)
(** ** Resource Prompt *)

Module ResourcePrompt.

(** Calls that leave the component: the two dispatching props, the
    analytics sink, the assignment to [window.location.href], and the
    browser following a link once its listeners have returned. *)
Inductive Effect : Type :=
| updateRecommendationsStep (step : string)
| addViewedRecommendation (stepSlug : string)
| recordEvent (name : string) (properties : list (string * string))
| setLocationHref (url : string)
| followLink (href : string).

(** The props read by the effect hook, the click handlers and the
    [answer] / [description] parts of the render. *)
Record Props : Type := mkProps {
  stepSlug : string;
  stateStepSlug : string;
  updatingStep : bool;
  nextRoute : string;
  ctaText : string;
  ctaLink : string;
  descriptionLink : string;
  summaryViewed : bool
}.

(** Body of the [useEffect] callback (lines 59-66). *)
Definition effect (p : Props) : list Effect :=
  if strict_neq (stepSlug p) (stateStepSlug p) then
    [updateRecommendationsStep (stepSlug p)]
  else if strict_eq (stepSlug p) (stateStepSlug p) && negb (updatingStep p) then
    [addViewedRecommendation (stepSlug p)]
  else
    [].

(** The four [useCallback] click handlers (lines 75-99). *)
Definition onExternalLinkClick (p : Props) : list Effect :=
  [recordEvent "jetpack_recommended_resource_learn_more_click"
               [("feature", stepSlug p)]].

Definition onResourceLinkClick (p : Props) : list Effect :=
  [recordEvent "jetpack_recommended_resource_read_click"
               [("feature", stepSlug p)];
   setLocationHref (nextRoute p)].

Definition onResourceSkipClick (p : Props) : list Effect :=
  [recordEvent "jetpack_recommended_resource_skip_click"
               [("feature", stepSlug p)]].

Definition onBackToSummaryClick (p : Props) : list Effect :=
  [recordEvent "jetpack_recommended_resource_back_to_summary_click"
               [("feature", stepSlug p)]].

Inductive Element : Type :=
| Text (s : string)
| Strong
| Div (className : string) (children : list Element)
| Span (className : string) (children : list Element)
| A (href : string) (onClick : list Effect) (children : list Element)
| ExternalLink (type className : option string) (href : string)
               (onClick : list Effect) (children : list Element)
| Fragment (children : list Element).

Section Render.
(** [__] from [@wordpress/i18n]. *)
Variable __ : string -> string -> string.

(** The conversion map handed to [createInterpolateElement]
    (lines 108-111), by tag name. *)
Definition descriptionTags (p : Props) : list (string * Element) :=
  [("strong", Strong);
   ("ExternalLink",
    ExternalLink None None (descriptionLink p) (onExternalLinkClick p) [])].

(** The [answer] prop of [PromptLayout] (lines 128-152). *)
Definition answer (p : Props) : Element :=
  Div "jp-recommendations-question__install-section"
    [ExternalLink (Some "button") (Some "dops-button is-rna is-primary")
                  (ctaLink p) (onResourceLinkClick p) [Text (ctaText p)];
     Div "jp-recommendations-question__jump-nav"
       ([A (nextRoute p) (onResourceSkipClick p)
           [Text (__ "Read Later" "jetpack")]]
        ++ when (summaryViewed p)
             (Fragment
                [Span "jp-recommendations-question__jump-nav-separator"
                      [Text "|"];
                 A "#/recommendations/summary" (onBackToSummaryClick p)
                   [Text (__ "View Summary" "jetpack"); Text " "]]))].
End Render.

(** Every node of a tree, parents before children. *)
Fixpoint nodes (e : Element) : list Element :=
  e :: match e with
       | Div _ cs | Span _ cs | A _ _ cs | ExternalLink _ _ _ _ cs
       | Fragment cs => flat_map nodes cs
       | Text _ | Strong => []
       end.

Definition isLink (e : Element) : bool :=
  match e with
  | A _ _ _ | ExternalLink _ _ _ _ _ => true
  | _ => false
  end.

(** The links the component renders: those of [answer] and the one
    interpolated into the description. *)
Definition links (__ : string -> string -> string) (p : Props) : list Element :=
  filter isLink (map snd (descriptionTags p) ++ nodes (answer __ p)).

(** Activating a link: its [onClick] listener runs to completion, and as
    no listener calls [preventDefault] the browser then follows [href]. *)
Definition click (e : Element) : list Effect :=
  match e with
  | A href onClick _ | ExternalLink _ _ href onClick _ =>
      onClick ++ [followLink href]
  | _ => []
  end.

Definition isRecordEvent (x : Effect) : bool :=
  match x with recordEvent _ _ => true | _ => false end.

Definition recorded (t : list Effect) : list Effect := filter isRecordEvent t.

(** A trace that starts with one analytics event tagged [feature: slug]
    and records nothing after it. *)
Definition recordsFirst (slug : string) (t : list Effect) : Prop :=
  exists name rest,
    t = recordEvent name [("feature", slug)] :: rest /\ recorded rest = [].

(** The [onClick] listener of a link. *)
Definition listener (e : Element) : list Effect :=
  match e with
  | A _ onClick _ | ExternalLink _ _ _ onClick _ => onClick
  | _ => []
  end.

Definition linkHref (e : Element) : string :=
  match e with
  | A href _ _ | ExternalLink _ _ href _ _ => href
  | _ => ""
  end.

(** Sample props: the step on screen is not yet the tracked one; it is
    the tracked one and idle. *)
Definition stepAhead : Props :=
  mkProps "A" "B" false "#/recommendations/next" "Read" "https://jetpack.com/a"
          "https://jetpack.com/more" true.

Definition stepCurrent : Props :=
  mkProps "A" "A" false "#/recommendations/next" "Read" "https://jetpack.com/a"
          "https://jetpack.com/more" false.

(** The names under which a trace records analytics events. *)
Definition eventNames (t : list Effect) : list string :=
  flat_map (fun x => match x with
                     | recordEvent name _ => [name]
                     | _ => []
                     end) t.


End ResourcePrompt.

(* ------------------------------------------------------------------ *)
(** ** AI Assistant control *)

Module AIControl.

(** Icons imported from [@wordpress/icons]. *)
Inductive Glyph : Type := arrowRight | check | image | pencil | update.

(** DOM events reaching the component.  [key] and [shiftKey] are only
    read from keyboard events. *)
Inductive Event : Type :=
| ClickEvent
| KeyboardEvent (key : string) (shiftKey : bool).

(** The callback props. *)
Inductive Callback : Type :=
| getSuggestionFromOpenAI
| handleAcceptContent
| handleGetSuggestion
| setAiType
| setUserPrompt.

Inductive Value : Type :=
| VString (s : string)
| VEvent (e : Event).

(** What a listener does: calls of callback props with their actual
    arguments, and [event.preventDefault()]. *)
Inductive Effect : Type :=
| Call (f : Callback) (args : list Value)
| preventDefault.

Definition Handler : Type := Event -> list Effect.

Record MenuControl : Type := mkControl {
  title : string;
  onClick : Handler
}.

Inductive Element : Type :=
| Fragment (children : list Element)
| BlockControls (children : list Element)
| ToolbarGroup (children : list Element)
| ToolbarButton (icon : Glyph) (onClick : Handler) (children : string)
| ToolbarDropdownMenu (label : string) (controls : list MenuControl)
| Loading
| Div (className : string) (children : list Element)
| TextareaControl (onChange : string -> list Effect) (onKeyPress : Handler)
                  (rows placeholder className : string)
| Button (onClick : Handler) (isSmall disabled : bool) (label : string)
         (children : list Element)
| Icon (icon : Glyph).

(** The non-callback props of [AIControl]. *)
Record Props : Type := mkProps {
  aiType : string;
  animationDone : bool;
  content : string;
  contentIsLoaded : bool;
  isWaitingState : bool;
  loadingImages : bool;
  placeholder : string;
  showRetry : bool
}.

(** [! content] for a string: only the empty string is falsy. *)
Definition falsy (s : string) : bool := strict_eq s "".

(** Lines 29-34. *)
Definition handleInputEnter : Handler := fun event =>
  match event with
  | KeyboardEvent key shiftKey =>
      if strict_eq key "Enter" && negb shiftKey then
        [preventDefault; Call handleGetSuggestion []]
      else []
  | ClickEvent => []
  end.

(** Lines 36-42.  The arrow function takes no parameter, so the event it
    is handed as a click listener is dropped. *)
Definition toggleAIType (aiType : string) : Handler := fun _ =>
  if strict_eq aiType "text" then [Call setAiType [VString "image"]]
  else [Call setAiType [VString "text"]].

Section Render.
(** [__] from [@wordpress/i18n]. *)
Variable __ : string -> string -> string.

(** Lines 84-154.  A callback prop passed as [onClick] receives the
    event; the inline arrow functions ignore it. *)
Definition ToolbarControls (aiType : string)
    (animationDone contentIsLoaded showRetry : bool)
    (toggleAIType : Handler) : Element :=
  BlockControls
    (when (strict_eq aiType "text")
       (ToolbarGroup
          (when (negb showRetry && contentIsLoaded && animationDone)
             (Fragment
                [ToolbarButton check
                   (fun ev => [Call handleAcceptContent [VEvent ev]])
                   (__ "Done" "jetpack")])
           ++ when (negb showRetry && negb contentIsLoaded)
                (ToolbarButton pencil
                   (fun _ => [Call getSuggestionFromOpenAI [VString "continue"]])
                   (__ "Continue writing" "jetpack"))
           ++ when (negb showRetry && negb contentIsLoaded)
                (ToolbarDropdownMenu "More"
                   [mkControl (__ "Summarize" "jetpack")
                      (fun _ => [Call getSuggestionFromOpenAI [VString "summarize"]]);
                    mkControl (__ "Write a summary based on title" "jetpack")
                      (fun _ => [Call getSuggestionFromOpenAI [VString "titleSummary"]]);
                    mkControl (__ "Expand on preceding content" "jetpack")
                      (fun _ => [Call getSuggestionFromOpenAI [VString "continue"]])])
           ++ when showRetry
                (ToolbarButton update
                   (fun ev => [Call handleGetSuggestion [VEvent ev]])
                   (__ "Retry" "jetpack"))))
     ++ when (negb showRetry && negb contentIsLoaded)
          (ToolbarGroup
             (when (strict_eq aiType "text")
                (ToolbarButton image toggleAIType
                   (__ "Ask AI for an image" "jetpack"))
              ++ when (strict_eq aiType "image")
                   (ToolbarButton pencil toggleAIType
                      (__ "Ask AI to write" "jetpack"))))).

(** The [ToolbarControls] element of lines 47-56. *)
Definition toolbar (p : Props) : Element :=
  ToolbarControls (aiType p) (animationDone p) (contentIsLoaded p)
    (showRetry p) (toggleAIType (aiType p)).

(** Lines 44-79. *)
Definition AIControl (p : Props) : Element :=
  Fragment
    (when (negb (isWaitingState p)) (toolbar p)
     ++ [Div "jetpack-ai-assistant__input-wrapper"
           (when ((falsy (content p) && isWaitingState p)
                  || loadingImages p) Loading
            ++ [TextareaControl
                  (fun value => [Call setUserPrompt [VString value]])
                  handleInputEnter
                  "1"
                  (if isWaitingState p then __ "AI writing" "jetpack"
                   else placeholder p)
                  "jetpack-ai-assistant__input";
                Div "jetpack-ai-assistant__controls"
                  [Button (fun _ => [Call handleGetSuggestion []])
                     true (isWaitingState p)
                     (__ "Do some magic!" "jetpack")
                     [Icon arrowRight]]])]).
End Render.

(** Every node of a tree, parents before children. *)
Fixpoint nodes (e : Element) : list Element :=
  e :: match e with
       | Fragment cs | BlockControls cs | ToolbarGroup cs | Div _ cs
       | Button _ _ _ _ cs => flat_map nodes cs
       | _ => []
       end.

Definition isToolbarControl (e : Element) : bool :=
  match e with
  | ToolbarButton _ _ _ | ToolbarDropdownMenu _ _ => true
  | _ => false
  end.

(** The toolbar buttons and menus of a tree, in document order. *)
Definition toolbarControls (e : Element) : list Element :=
  filter isToolbarControl (nodes e).

Definition isBlockControls (e : Element) : bool :=
  match e with BlockControls _ => true | _ => false end.

Definition isLoading (e : Element) : bool :=
  match e with Loading => true | _ => false end.

Definition hasToolbar (e : Element) : bool := existsb isBlockControls (nodes e).
Definition hasLoading (e : Element) : bool := existsb isLoading (nodes e).

Definition Callback_eqb (f g : Callback) : bool :=
  match f, g with
  | getSuggestionFromOpenAI, getSuggestionFromOpenAI
  | handleAcceptContent, handleAcceptContent
  | handleGetSuggestion, handleGetSuggestion
  | setAiType, setAiType
  | setUserPrompt, setUserPrompt => true
  | _, _ => false
  end.

Definition isCallOf (f : Callback) (x : Effect) : bool :=
  match x with
  | Call g _ => Callback_eqb f g
  | preventDefault => false
  end.

(** What clicking a control does; for a menu, what clicking its entries
    does, entry by entry. *)
Definition clickEffects (e : Element) : list Effect :=
  match e with
  | ToolbarButton _ h _ => h ClickEvent
  | ToolbarDropdownMenu _ cs => flat_map (fun c => onClick c ClickEvent) cs
  | _ => []
  end.

(** [calls f e]: clicking control [e] reaches callback [f]. *)
Definition calls (f : Callback) (e : Element) : bool :=
  existsb (isCallOf f) (clickEffects e).

(** A key press delivered to the text area(s) of a tree. *)
Definition keyPress (e : Element) (ev : Event) : list Effect :=
  flat_map (fun n => match n with
                     | TextareaControl _ h _ _ _ => h ev
                     | _ => []
                     end) (nodes e).

(** The [disabled] attribute of each [Button] of a tree. *)
Definition buttonsDisabled (e : Element) : list bool :=
  flat_map (fun n => match n with
                     | Button _ _ d _ _ => [d]
                     | _ => []
                     end) (nodes e).

(** Modelled from the spec: the parent's [setAiType] callback is not part
    of these sources; the spec calls it the "set mode" command, so a call
    [setAiType(m)] makes [m] the mode the component is next rendered
    with.  Other calls leave the mode alone. *)
Definition setMode (mode : string) (x : Effect) : string :=
  match x with
  | Call setAiType [VString m] => m
  | _ => mode
  end.

Definition modeAfter (t : list Effect) (mode : string) : string :=
  fold_left setMode t mode.

(** One click on the mode toggle, seen from the mode. *)
Definition toggled (mode : string) : string :=
  modeAfter (toggleAIType mode ClickEvent) mode.

Definition isMode (s : string) : Prop := s = "text" \/ s = "image".

(** Sample props: a retry asked for in image mode; a request in flight
    whose content has started to arrive; text mode with loaded content
    still being animated; a fresh block in either mode. *)
Definition imageRetry : Props :=
  mkProps "image" false "" false false false "Ask AI" true.

Definition streaming : Props :=
  mkProps "text" false "Once upon" false true false "Ask AI" false.

Definition animating : Props :=
  mkProps "text" false "Once upon a time." true false false "Ask AI" false.

Definition freshText : Props :=
  mkProps "text" false "" false false false "Ask AI" false.

Definition freshImage : Props :=
  mkProps "image" false "" false false false "Ask AI" false.

Definition textRetry : Props :=
  mkProps "text" false "" false false false "Ask AI" true.

Definition textDone : Props :=
  mkProps "text" true "Once upon a time." true false false "Ask AI" false.

(** Text typed into the text area(s) of a tree: their [onChange]. *)
Definition typeText (e : Element) (value : string) : list Effect :=
  flat_map (fun n => match n with
                     | TextareaControl oc _ _ _ _ => oc value
                     | _ => []
                     end) (nodes e).

(** A click aimed at each [Button] of a tree; a disabled button
    dispatches no click event. *)
Definition pressButtons (e : Element) : list Effect :=
  flat_map (fun n => match n with
                     | Button h _ d _ _ => if d then [] else h ClickEvent
                     | _ => []
                     end) (nodes e).

(** The [placeholder] attribute of each text area of a tree. *)
Definition placeholders (e : Element) : list string :=
  flat_map (fun n => match n with
                     | TextareaControl _ _ _ ph _ => [ph]
                     | _ => []
                     end) (nodes e).

(** Sample props with an [aiType] that is neither mode; loaded text
    whose images are still loading. *)
Definition unknownMode : Props :=
  mkProps "video" false "" false false false "Ask AI" false.

Definition imagesLoading : Props :=
  mkProps "image" false "A cat" false false true "Ask AI" false.

End AIControl.

(* ------------------------------------------------------------------ *)
(** ** JavaScript values and objects *)

From Stdlib Require Import ZArith.

Module Js.

(** The primitive values a loosely typed prop may hold. *)
Inductive Value : Type :=
| undefined
| null
| Boolean (b : bool)
| Number (n : Z)
| Str (s : string).

(** The test made by [v ? a : b], [v && a] and [! v]. *)
Definition truthy (v : Value) : bool :=
  match v with
  | undefined | null => false
  | Boolean b => b
  | Number n => negb (Z.eqb n 0)
  | Str s => negb (strict_eq s "")
  end.

(** A string-valued prop that may be absent. *)
Definition truthyString (o : option string) : bool :=
  match o with
  | Some s => negb (strict_eq s "")
  | None => false
  end.

(** An object as its own properties, most recently written first. *)
Definition Obj : Type := list (string * Value).

Fixpoint getProp (k : string) (o : Obj) : option Value :=
  match o with
  | [] => None
  | (k', v) :: rest => if strict_eq k k' then Some v else getProp k rest
  end.

(** [k: v] and [...src] inside an object literal, applied to the object
    built by the entries to their left. *)
Definition setProp (k : string) (v : Value) (o : Obj) : Obj := (k, v) :: o.
Definition spread (src o : Obj) : Obj := src ++ o.

(** [o.k]: a missing property reads as [undefined]. *)
Definition member (o : Obj) (k : string) : Value :=
  match getProp k o with
  | Some v => v
  | None => undefined
  end.

End Js.

(* ------------------------------------------------------------------ *)
(** ** Resource Prompt: the props handed to [PromptLayout] *)

Module PromptView.
Import ResourcePrompt.

(** The props of the component that [ResourcePrompt.Props] leaves out.
    [descriptionList] is an array when present; [descriptionSecondary],
    [illustrationPath] and [spotlightProduct] are strings when present. *)
Record ViewProps : Type := mkViewProps {
  isNew : Js.Value;
  progressValue : Js.Value;
  question : Js.Value;
  description : string;
  descriptionList : option (list string);
  descriptionSecondary : option string;
  illustrationPath : option string;
  rnaIllustration : Js.Value;
  spotlightProduct : option string
}.

Inductive Node : Type :=
| ProgressBar (color : string) (value : Js.Value)
| ReactFragment (children : list Node)
| Ul (className : string) (children : list Node)
| Li (children : string)
| P (className : string) (children : string)
| ProductSpotlight (productSlug stepSlug : string).

(** The attributes of the [PromptLayout] element; [None] is [null]. *)
Record Layout : Type := mkLayout {
  progressBar : option Node;
  layoutIsNew : Js.Value;
  layoutQuestion : Js.Value;
  layoutDescription : string * list (string * Element);
  content : option Node;
  layoutAnswer : Element;
  layoutIllustrationPath : option string;
  sidebarCard : option Node;
  rna : Js.Value
}.

Definition isArray (o : option (list string)) : bool :=
  match o with Some _ => true | None => false end.

Section Render.
Variable __ : string -> string -> string.

(** Lines 101-161.  An array is truthy even when empty; a falsy
    [descriptionSecondary] contributes no child. *)
Definition ResourcePromptComponent (p : Props) (v : ViewProps) : Layout :=
  mkLayout
    (if Js.truthy (progressValue v)
     then Some (ProgressBar "#00A32A" (progressValue v)) else None)
    (isNew v)
    (question v)
    (description v, descriptionTags p)
    (if isArray (descriptionList v) || Js.truthyString (descriptionSecondary v)
     then Some (ReactFragment
                  (match descriptionList v with
                   | Some items =>
                       [Ul "jp-recommendations-question__description-list"
                           (map Li items)]
                   | None => []
                   end
                   ++ match descriptionSecondary v with
                      | Some text =>
                          when (negb (strict_eq text ""))
                            (P "jp-recommendations-question__description" text)
                      | None => []
                      end))
     else None)
    (answer __ p)
    (if negb (Js.truthyString (spotlightProduct v))
     then illustrationPath v else None)
    (match spotlightProduct v with
     | Some slug =>
         if negb (strict_eq slug "")
         then Some (ProductSpotlight slug (stepSlug p)) else None
     | None => None
     end)
    (rnaIllustration v).
End Render.

(** The list items a content node shows, in order. *)
Fixpoint listItems (n : Node) : list string :=
  match n with
  | Li text => [text]
  | ReactFragment cs | Ul _ cs => flat_map listItems cs
  | _ => []
  end.

Definition paragraphs (n : Node) : list string :=
  match n with
  | ReactFragment cs =>
      flat_map (fun c => match c with P _ text => [text] | _ => [] end) cs
  | _ => []
  end.

Definition lists (n : Node) : list Node :=
  match n with
  | ReactFragment cs =>
      filter (fun c => match c with Ul _ _ => true | _ => false end) cs
  | _ => []
  end.

Definition plainView : ViewProps :=
  mkViewProps (Js.Boolean false) (Js.Number 50) (Js.Str "Read this?")
              "See <ExternalLink>more</ExternalLink>" (Some ["one"; "two"])
              (Some "Later.") (Some "/img/a.svg") (Js.Boolean true) None.

Definition spotlightView : ViewProps :=
  mkViewProps (Js.Boolean false) (Js.Number 0) (Js.Str "Read this?")
              "See <ExternalLink>more</ExternalLink>" None
              None (Some "/img/a.svg") (Js.Boolean true) (Some "backup").

End PromptView.

(* ------------------------------------------------------------------ *)
(** ** Resource Prompt: the effect hook across renders *)

Module Lifecycle.
Import ResourcePrompt.

(** One render: the props, and the identities of the two callback props
    named in the dependency list (lines 67-73). *)
Record Render : Type := mkRender {
  props : Props;
  updateRecommendationsStepRef : nat;
  addViewedRecommendationRef : nat
}.

(** No entry of the dependency list changed between two renders. *)
Definition sameDeps (a b : Render) : bool :=
  strict_eq (stepSlug (props a)) (stepSlug (props b))
  && strict_eq (stateStepSlug (props a)) (stateStepSlug (props b))
  && Bool.eqb (updatingStep (props a)) (updatingStep (props b))
  && Nat.eqb (updateRecommendationsStepRef a) (updateRecommendationsStepRef b)
  && Nat.eqb (addViewedRecommendationRef a) (addViewedRecommendationRef b).

(** [useEffect] with a dependency list: the callback runs after the
    first render and after every render whose dependencies differ from
    those of the render before. *)
Fixpoint commits (prev : option Render) (rs : list Render) : list Effect :=
  match rs with
  | [] => []
  | r :: rest =>
      (match prev with
       | None => effect (props r)
       | Some q => if sameDeps q r then [] else effect (props r)
       end) ++ commits (Some r) rest
  end.

(** A render of step [slug] while the store tracks [tracked]. *)
Definition renderOf (slug tracked : string) (updating : bool) : Render :=
  mkRender (mkProps slug tracked updating "#/recommendations/next" "Read"
                    "https://jetpack.com/a" "https://jetpack.com/more" false)
           0 0.

End Lifecycle.

(* ------------------------------------------------------------------ *)
(** ** Resource Prompt: [connect] *)

Module Connect.

Section MapState.
(** The store and the selectors imported from [state/recommendations]
    and [feature-utils]. *)
Variable State : Type.
Variable getNextRoute : State -> Js.Value.
Variable getStepContent : Js.Value -> Js.Obj.
Variable getStep : State -> Js.Value.
Variable isUpdatingRecommendationsStep : State -> Js.Value.
Variable isStepViewed : State -> string -> Js.Value.
Variable getProductSlugForStep : State -> Js.Value -> Js.Value.

(** Lines 165-172: the object literal, entries applied left to right. *)
Definition mapStateToProps (state : State) (ownProps : Js.Obj) : Js.Obj :=
  Js.setProp "spotlightProduct"
    (getProductSlugForStep state (Js.member ownProps "stepSlug"))
    (Js.setProp "summaryViewed" (isStepViewed state "summary")
       (Js.setProp "updatingStep" (isUpdatingRecommendationsStep state)
          (Js.setProp "stateStepSlug" (getStep state)
             (Js.spread (getStepContent (Js.member ownProps "stepSlug"))
                (Js.setProp "nextRoute" (getNextRoute state) []))))).
End MapState.

(** The keys written after the spread. *)
Definition storeKeys : list string :=
  ["stateStepSlug"; "updatingStep"; "summaryViewed"; "spotlightProduct"].

(** A step content that tries to set every prop of the component. *)
Definition greedyContent (slug : Js.Value) : Js.Obj :=
  [("nextRoute", Js.Str "#/elsewhere"); ("stateStepSlug", Js.Str "other");
   ("updatingStep", Js.Boolean true); ("question", Js.Str "Why?")].

End Connect.

(* ------------------------------------------------------------------ *)
(** ** Properties of the Resource Prompt *)

Section ResourcePromptFacts.
Import ResourcePrompt.
Variable __ : string -> string -> string.

Lemma strict_neq_true a b : strict_neq a b = true <-> a <> b.
Proof.
  unfold strict_neq, strict_eq.
  rewrite negb_true_iff. apply String.eqb_neq.
Qed.

Lemma strict_eq_true a b : strict_eq a b = true <-> a = b.
Proof. apply String.eqb_eq. Qed.

Lemma effect_differs p :
  stepSlug p <> stateStepSlug p ->
  effect p = [updateRecommendationsStep (stepSlug p)].
Proof.
  intros H. unfold effect.
  apply strict_neq_true in H. now rewrite H.
Qed.

Lemma effect_same p :
  stepSlug p = stateStepSlug p ->
  effect p = if updatingStep p then []
             else [addViewedRecommendation (stepSlug p)].
Proof.
  intros H. unfold effect, strict_neq.
  apply strict_eq_true in H. rewrite H. simpl.
  now destruct (updatingStep p).
Qed.

(** C1.  One evaluation of the mount/update effect issues the step-change
    command (for [stepSlug]) exactly when [stepSlug] differs from
    [stateStepSlug], the viewed command (for [stepSlug]) exactly when the
    two are equal and no update is in flight, and nothing otherwise; in
    every case at most one command is issued, and it is one of those two. *)
Theorem effect_mutually_exclusive (p : Props) :
  (effect p = [updateRecommendationsStep (stepSlug p)]
     <-> stepSlug p <> stateStepSlug p) /\
  (effect p = [addViewedRecommendation (stepSlug p)]
     <-> stepSlug p = stateStepSlug p /\ updatingStep p = false) /\
  (effect p = []
     <-> stepSlug p = stateStepSlug p /\ updatingStep p = true) /\
  (forall c, In c (effect p) ->
     c = updateRecommendationsStep (stepSlug p) \/
     c = addViewedRecommendation (stepSlug p)) /\
  length (effect p) <= 1.
Proof.
  destruct (String.string_dec (stepSlug p) (stateStepSlug p)) as [E | N].
  - rewrite (effect_same p E).
    destruct (updatingStep p); simpl; repeat split;
      try tauto; try lia; try congruence; try discriminate;
      intros; intuition (try discriminate; try congruence).
  - rewrite (effect_differs p N); simpl; repeat split;
      try tauto; try lia; try congruence; try discriminate;
      intros; intuition (try discriminate; try congruence).
Qed.

(** The two examples of the specification. *)
Example effect_stepAhead :
  effect stepAhead = [updateRecommendationsStep "A"].
Proof. reflexivity. Qed.

Example effect_stepCurrent :
  effect stepCurrent = [addViewedRecommendation "A"].
Proof. reflexivity. Qed.

Lemma recordsFirst_once slug t :
  recordsFirst slug t -> length (recorded t) = 1.
Proof.
  intros (name & rest & -> & H). unfold recorded in *. simpl. now rewrite H.
Qed.

Lemma recordsFirst_app slug t u :
  recordsFirst slug t -> recorded u = [] -> recordsFirst slug (t ++ u).
Proof.
  intros (name & rest & -> & H) Hu.
  exists name, (rest ++ u). split; [reflexivity |].
  unfold recorded in *. now rewrite filter_app, H, Hu.
Qed.

Lemma handlers_recordsFirst p :
  Forall (recordsFirst (stepSlug p))
    [onExternalLinkClick p; onResourceLinkClick p;
     onResourceSkipClick p; onBackToSummaryClick p].
Proof.
  repeat constructor; eexists _, _; split; reflexivity.
Qed.

Lemma links_listeners p :
  map listener (links __ p)
  = [onExternalLinkClick p; onResourceLinkClick p; onResourceSkipClick p]
    ++ when (summaryViewed p) (onBackToSummaryClick p).
Proof. unfold links. simpl. now destruct (summaryViewed p). Qed.

Lemma links_click p e :
  In e (links __ p) -> click e = listener e ++ [followLink (linkHref e)].
Proof.
  unfold links. intros H. apply filter_In in H as [_ H].
  destruct e; simpl in H; try discriminate; reflexivity.
Qed.

(** C4.  Each of the four click handlers records exactly one analytics
    event, tagged [feature: stepSlug], as the first thing it does; the
    resource-link handler only then assigns [nextRoute] to the location.
    The rendered links carry these handlers (external link, resource
    link, skip, and back-to-summary once the summary was viewed), and a
    click on any of them records that single event before the browser
    follows the link. *)
Theorem click_handlers_record_once (p : Props) :
  Forall (fun h => recordsFirst (stepSlug p) h /\ length (recorded h) = 1)
    [onExternalLinkClick p; onResourceLinkClick p;
     onResourceSkipClick p; onBackToSummaryClick p] /\
  onResourceLinkClick p
  = [recordEvent "jetpack_recommended_resource_read_click"
                 [("feature", stepSlug p)];
     setLocationHref (nextRoute p)] /\
  map listener (links __ p)
  = [onExternalLinkClick p; onResourceLinkClick p; onResourceSkipClick p]
    ++ when (summaryViewed p) (onBackToSummaryClick p) /\
  Forall (fun e =>
            recordsFirst (stepSlug p) (click e) /\
            length (recorded (click e)) = 1 /\
            exists before, click e = before ++ [followLink (linkHref e)])
    (links __ p).
Proof.
  split; [| split; [reflexivity | split; [apply links_listeners |]]].
  - eapply Forall_impl; [| apply handlers_recordsFirst].
    intros h H. split; [exact H | eapply recordsFirst_once; exact H].
  - apply Forall_forall. intros e He.
    assert (Hl : recordsFirst (stepSlug p) (listener e)).
    { pose proof (handlers_recordsFirst p) as Hh.
      rewrite Forall_forall in Hh. apply Hh.
      assert (Hin : In (listener e) (map listener (links __ p)))
        by now apply in_map.
      rewrite links_listeners in Hin.
      destruct (summaryViewed p); simpl in Hin |- *; tauto. }
    rewrite (links_click p e He).
    assert (Hc : recordsFirst (stepSlug p)
                   (listener e ++ [followLink (linkHref e)]))
      by (apply recordsFirst_app; [exact Hl | reflexivity]).
    split; [exact Hc | split].
    + eapply recordsFirst_once; exact Hc.
    + now exists (listener e).
Qed.

End ResourcePromptFacts.

(* ------------------------------------------------------------------ *)
(** ** Properties of the AI Assistant control *)

Section AIControlFacts.
Import AIControl.
Variable __ : string -> string -> string.

(** Splitting a set of props into its fields and case-splitting on the
    string comparisons the render makes. *)
Ltac fields p :=
  destruct p as [ty ad ct cl ws li ph sr]; cbn [aiType animationDone content
    contentIsLoaded isWaitingState loadingImages placeholder showRetry] in *.

Ltac by_mode ty :=
  destruct (String.eqb_spec ty "text") as [-> | Htext];
  [ | destruct (String.eqb_spec ty "image") as [-> | Himage] ].

Lemma strict_eq_false a b : a <> b -> strict_eq a b = false.
Proof. intros H. now apply String.eqb_neq. Qed.

(** While no request is in flight, the toolbar of the control is the
    [ToolbarControls] element. *)
Lemma AIControl_idle_toolbar p :
  isWaitingState p = false ->
  toolbarControls (AIControl __ p) = toolbarControls (toolbar __ p) /\
  hasToolbar (AIControl __ p) = true.
Proof.
  intros Hw. unfold AIControl, toolbarControls, hasToolbar. rewrite Hw.
  split; [| reflexivity].
  generalize (toolbar __ p) as T. intros T.
  cbn [negb when app nodes flat_map].
  change (filter isToolbarControl (Fragment ?l :: ?r))
    with (filter isToolbarControl r).
  rewrite app_nil_r, filter_app.
  destruct (_ || loadingImages p); cbn; now rewrite app_nil_r.
Qed.

(** C2, as amended.  When [showRetry] is true the toolbar shows no control
    other than "Retry", whatever [contentIsLoaded] and [animationDone]
    are: in text mode it shows exactly the Retry button, wired to
    [handleGetSuggestion]; in image mode it shows no control at all. *)
Theorem retry_alone_in_text_mode (p : Props) :
  isMode (aiType p) ->
  showRetry p = true ->
  (aiType p = "text" ->
   toolbarControls (toolbar __ p)
   = [ToolbarButton update
        (fun ev => [Call handleGetSuggestion [VEvent ev]])
        (__ "Retry" "jetpack")]) /\
  (aiType p = "image" -> toolbarControls (toolbar __ p) = []) /\
  (forall e, In e (toolbarControls (toolbar __ p)) ->
     e = ToolbarButton update
           (fun ev => [Call handleGetSuggestion [VEvent ev]])
           (__ "Retry" "jetpack")).
Proof.
  fields p. intros [-> | ->] ->; destruct cl, ad; cbn;
    (split; [| split]); try discriminate; try reflexivity;
    intros e He; cbn in He; intuition (subst; auto).
Qed.

(** C3, as amended.  While a request is in flight the [ToolbarControls]
    block is absent; the loading indicator is present exactly when no
    content has arrived yet or images are loading. *)
Theorem waiting_hides_toolbar (p : Props) :
  isWaitingState p = true ->
  hasToolbar (AIControl __ p) = false /\
  toolbarControls (AIControl __ p) = [] /\
  (hasLoading (AIControl __ p) = true
     <-> content p = "" \/ loadingImages p = true).
Proof.
  fields p. intros ->.
  unfold hasToolbar, hasLoading, toolbarControls, AIControl, falsy.
  cbn [isWaitingState content loadingImages negb when app andb].
  rewrite andb_true_r.
  destruct (String.eqb_spec ct "") as [-> | Hct].
  - cbn. repeat split; auto.
  - rewrite (strict_eq_false _ _ Hct). destruct li; cbn; repeat split; auto.
    intros [H | H]; congruence.
Qed.

Lemma toggled_text : toggled "text" = "image".
Proof. reflexivity. Qed.

Lemma toggled_image : toggled "image" = "text".
Proof. reflexivity. Qed.

Lemma toggled_twice m : isMode m -> toggled (toggled m) = m.
Proof. now intros [-> | ->]. Qed.

Lemma toggled_even m k : isMode m -> Nat.iter (2 * k) toggled m = m.
Proof.
  intros Hm. induction k as [| k IH]; [reflexivity |].
  replace (2 * S k) with (S (S (2 * k))) by lia.
  cbn [Nat.iter nat_rect]. fold (Nat.iter (2 * k) toggled m).
  rewrite IH. now apply toggled_twice.
Qed.

(** C5.  One click on the mode toggle issues a single [setAiType] call,
    taking text to image and image to text; the result is again a mode
    and differs from the one before; an even number of toggles restores
    the original mode. *)
Theorem toggle_involution (m : string) :
  isMode m ->
  (m = "text" ->
   forall ev, toggleAIType m ev = [Call setAiType [VString "image"]]) /\
  (m = "image" ->
   forall ev, toggleAIType m ev = [Call setAiType [VString "text"]]) /\
  toggled "text" = "image" /\
  toggled "image" = "text" /\
  isMode (toggled m) /\
  toggled (toggled m) = m /\
  (forall k, Nat.iter (2 * k) toggled m = m).
Proof.
  intros Hm. repeat split.
  - now intros ->.
  - now intros ->.
  - destruct Hm as [-> | ->]; [right | left]; reflexivity.
  - now apply toggled_twice.
  - intros k. now apply toggled_even.
Qed.

(** C6.  The toolbar offers a control that accepts the content exactly
    when [showRetry] is false, the mode is text, the content is loaded
    and the animation is done; it is then the "Done" button, wired to
    [handleAcceptContent], and the only control shown. *)
Theorem done_shown_iff (p : Props) :
  (existsb (calls handleAcceptContent) (toolbarControls (toolbar __ p)) = true
     <-> showRetry p = false /\ aiType p = "text" /\
         contentIsLoaded p = true /\ animationDone p = true) /\
  (In (ToolbarButton check
         (fun ev => [Call handleAcceptContent [VEvent ev]])
         (__ "Done" "jetpack"))
      (toolbarControls (toolbar __ p))
     <-> showRetry p = false /\ aiType p = "text" /\
         contentIsLoaded p = true /\ animationDone p = true) /\
  (showRetry p = false /\ aiType p = "text" /\
   contentIsLoaded p = true /\ animationDone p = true ->
   toolbarControls (toolbar __ p)
   = [ToolbarButton check
        (fun ev => [Call handleAcceptContent [VEvent ev]])
        (__ "Done" "jetpack")]).
Proof.
  unfold toolbar, ToolbarControls, toolbarControls, strict_eq. fields p.
  by_mode ty.
  - destruct sr, cl, ad; cbn; repeat split;
      try tauto; try discriminate; intros;
      repeat match goal with
             | H : _ /\ _ |- _ => destruct H
             | H : _ \/ _ |- _ => destruct H
             end;
      try discriminate; try tauto; auto.
  - destruct sr, cl, ad; cbn; repeat split;
      try tauto; try discriminate; intros;
      repeat match goal with
             | H : _ /\ _ |- _ => destruct H
             | H : _ \/ _ |- _ => destruct H
             end;
      try discriminate; try tauto; try congruence.
  - destruct sr, cl, ad; cbn; repeat split;
      try tauto; try discriminate; intros;
      repeat match goal with
             | H : _ /\ _ |- _ => destruct H
             | H : _ \/ _ |- _ => destruct H
             end;
      try discriminate; try tauto; try congruence.
Qed.

(** C7.  With [showRetry] false, text mode and no loaded content, the
    toolbar shows the "Continue writing" button, which asks for the
    [continue] variant, and a menu of exactly three entries asking for
    [summarize], [titleSummary] and [continue]; each entry calls
    [getSuggestionFromOpenAI] with its variant.  (The mode toggle is
    shown next to them.) *)
Theorem continue_and_menu (p : Props) :
  showRetry p = false ->
  aiType p = "text" ->
  contentIsLoaded p = false ->
  toolbarControls (toolbar __ p)
  = [ToolbarButton pencil
       (fun _ => [Call getSuggestionFromOpenAI [VString "continue"]])
       (__ "Continue writing" "jetpack");
     ToolbarDropdownMenu "More"
       [mkControl (__ "Summarize" "jetpack")
          (fun _ => [Call getSuggestionFromOpenAI [VString "summarize"]]);
        mkControl (__ "Write a summary based on title" "jetpack")
          (fun _ => [Call getSuggestionFromOpenAI [VString "titleSummary"]]);
        mkControl (__ "Expand on preceding content" "jetpack")
          (fun _ => [Call getSuggestionFromOpenAI [VString "continue"]])];
     ToolbarButton image (toggleAIType "text")
       (__ "Ask AI for an image" "jetpack")] /\
  map clickEffects
      (filter (calls getSuggestionFromOpenAI) (toolbarControls (toolbar __ p)))
  = [[Call getSuggestionFromOpenAI [VString "continue"]];
     [Call getSuggestionFromOpenAI [VString "summarize"];
      Call getSuggestionFromOpenAI [VString "titleSummary"];
      Call getSuggestionFromOpenAI [VString "continue"]]].
Proof.
  unfold toolbar. fields p. intros -> -> ->.
  destruct ad; split; reflexivity.
Qed.

(** C8.  In either mode, the toolbar has a control that sets the mode
    exactly when [showRetry] and [contentIsLoaded] are both false.  It is
    then a single button carrying the label and icon of the other mode
    ("Ask AI for an image" with the image icon in text mode, "Ask AI to
    write" with the pencil icon in image mode), and a click on it calls
    [setAiType] with the other mode. *)
Theorem mode_toggle_iff (p : Props) :
  isMode (aiType p) ->
  (existsb (calls setAiType) (toolbarControls (toolbar __ p)) = true
     <-> showRetry p = false /\ contentIsLoaded p = false) /\
  (showRetry p = false -> contentIsLoaded p = false -> aiType p = "text" ->
   filter (calls setAiType) (toolbarControls (toolbar __ p))
   = [ToolbarButton image (toggleAIType (aiType p))
        (__ "Ask AI for an image" "jetpack")] /\
   forall ev, toggleAIType (aiType p) ev = [Call setAiType [VString "image"]]) /\
  (showRetry p = false -> contentIsLoaded p = false -> aiType p = "image" ->
   filter (calls setAiType) (toolbarControls (toolbar __ p))
   = [ToolbarButton pencil (toggleAIType (aiType p))
        (__ "Ask AI to write" "jetpack")] /\
   forall ev, toggleAIType (aiType p) ev = [Call setAiType [VString "text"]]).
Proof.
  unfold toolbar. fields p.
  intros [-> | ->]; destruct sr, cl, ad; cbn;
    repeat split; intros; try discriminate; try tauto;
    repeat match goal with H : _ /\ _ |- _ => destruct H end;
    try discriminate.
Qed.

(** C9.  A key press on the text area calls [handleGetSuggestion] (after
    [preventDefault]) when the key is Enter and Shift is not held,
    whatever [isWaitingState] is; in particular it does so while a
    request is in flight, when the submit button is disabled. *)
Theorem enter_submits_while_waiting (p : Props) :
  (forall key shift,
     keyPress (AIControl __ p) (KeyboardEvent key shift)
     = if strict_eq key "Enter" && negb shift
       then [preventDefault; Call handleGetSuggestion []] else []) /\
  keyPress (AIControl __ p) (KeyboardEvent "Enter" false)
  = [preventDefault; Call handleGetSuggestion []] /\
  buttonsDisabled (AIControl __ p) = [isWaitingState p] /\
  (isWaitingState p = true ->
   keyPress (AIControl __ p) (KeyboardEvent "Enter" false)
   = [preventDefault; Call handleGetSuggestion []] /\
   buttonsDisabled (AIControl __ p) = [true]).
Proof.
  assert (K : forall ev, keyPress (AIControl __ p) ev = handleInputEnter ev).
  { intros ev. unfold keyPress, AIControl, toolbar, ToolbarControls. fields p.
    destruct ws, (strict_eq ty "text"), (strict_eq ty "image"), sr, cl, ad,
      (falsy ct), li; cbn; now rewrite ?app_nil_r. }
  assert (B : buttonsDisabled (AIControl __ p) = [isWaitingState p]).
  { unfold buttonsDisabled, AIControl, toolbar, ToolbarControls. fields p.
    destruct ws, (strict_eq ty "text"), (strict_eq ty "image"), sr, cl, ad,
      (falsy ct), li; reflexivity. }
  repeat split.
  - intros key shift. now rewrite K.
  - now rewrite K.
  - exact B.
  - now rewrite K.
  - rewrite B. now f_equal.
Qed.

(** C10.  In text mode, with [showRetry] false, the content loaded and
    the animation not yet done, the toolbar holds an empty group and no
    control at all; when no request is in flight the control renders
    that empty toolbar. *)
Theorem toolbar_empty_while_animating (p : Props) :
  aiType p = "text" ->
  showRetry p = false ->
  contentIsLoaded p = true ->
  animationDone p = false ->
  toolbar __ p = BlockControls [ToolbarGroup []] /\
  toolbarControls (toolbar __ p) = [] /\
  (isWaitingState p = false ->
   hasToolbar (AIControl __ p) = true /\
   toolbarControls (AIControl __ p) = []).
Proof.
  intros Ht Hr Hc Ha.
  assert (E : toolbar __ p = BlockControls [ToolbarGroup []]).
  { unfold toolbar. rewrite Ht, Hr, Hc, Ha. reflexivity. }
  split; [exact E | split].
  - now rewrite E.
  - intros Hw. destruct (AIControl_idle_toolbar p Hw) as [Hctl Hbar].
    split; [exact Hbar |]. rewrite Hctl, E. reflexivity.
Qed.

End AIControlFacts.

(* ------------------------------------------------------------------ *)
(** ** The theorems at sample props *)

Section ResourcePromptSamples.
Import ResourcePrompt.

Lemma effect_mutually_exclusive_stepAhead :
  stepSlug stepAhead <> stateStepSlug stepAhead /\
  effect stepAhead = [updateRecommendationsStep "A"].
Proof.
  assert (N : stepSlug stepAhead <> stateStepSlug stepAhead) by discriminate.
  split; [exact N |].
  exact (proj2 (proj1 (effect_mutually_exclusive stepAhead)) N).
Defined.

Lemma click_handlers_record_once_stepAhead :
  map listener (links untranslated stepAhead)
  = [onExternalLinkClick stepAhead; onResourceLinkClick stepAhead;
     onResourceSkipClick stepAhead; onBackToSummaryClick stepAhead].
Proof.
  exact (proj1 (proj2 (proj2
           (click_handlers_record_once untranslated stepAhead)))).
Defined.

End ResourcePromptSamples.

Section AIControlSamples.
Import AIControl.

(** C2 fails as stated: in image mode a requested retry shows no Retry
    button; the toolbar is empty. *)
Lemma retry_absent_in_image_mode :
  isMode (aiType imageRetry) /\
  showRetry imageRetry = true /\
  toolbarControls (toolbar untranslated imageRetry) = [] /\
  existsb (calls handleGetSuggestion)
          (toolbarControls (toolbar untranslated imageRetry)) = false.
Proof. repeat split. now right. Qed.

Lemma retry_alone_in_text_mode_textRetry :
  isMode (aiType textRetry) /\
  showRetry textRetry = true /\
  toolbarControls (toolbar untranslated textRetry)
  = [ToolbarButton update
       (fun ev => [Call handleGetSuggestion [VEvent ev]]) "Retry"].
Proof.
  assert (M : isMode (aiType textRetry)) by (left; reflexivity).
  split; [exact M | split; [reflexivity |]].
  exact (proj1 (retry_alone_in_text_mode untranslated textRetry M eq_refl)
           eq_refl).
Defined.

(** C3 fails as stated: once content has started to arrive (and no images
    are loading) a request in flight shows no loading indicator. *)
Lemma loading_absent_while_streaming :
  isWaitingState streaming = true /\
  hasLoading (AIControl untranslated streaming) = false.
Proof. split; reflexivity. Qed.

Lemma waiting_hides_toolbar_streaming :
  isWaitingState streaming = true /\
  hasToolbar (AIControl untranslated streaming) = false.
Proof.
  split; [reflexivity |].
  exact (proj1 (waiting_hides_toolbar untranslated streaming eq_refl)).
Defined.

Lemma toggle_involution_text :
  isMode "text" /\ Nat.iter 4 toggled "text" = "text".
Proof.
  assert (M : isMode "text") by (left; reflexivity).
  split; [exact M |].
  exact (proj2 (proj2 (proj2 (proj2 (proj2 (proj2
           (toggle_involution "text" M)))))) 2).
Defined.

Lemma done_shown_iff_textDone :
  toolbarControls (toolbar untranslated textDone)
  = [ToolbarButton check
       (fun ev => [Call handleAcceptContent [VEvent ev]]) "Done"].
Proof.
  exact (proj2 (proj2 (done_shown_iff untranslated textDone))
           (conj eq_refl (conj eq_refl (conj eq_refl eq_refl)))).
Defined.

Lemma continue_and_menu_freshText :
  showRetry freshText = false /\
  aiType freshText = "text" /\
  contentIsLoaded freshText = false /\
  map clickEffects
      (filter (calls getSuggestionFromOpenAI)
              (toolbarControls (toolbar untranslated freshText)))
  = [[Call getSuggestionFromOpenAI [VString "continue"]];
     [Call getSuggestionFromOpenAI [VString "summarize"];
      Call getSuggestionFromOpenAI [VString "titleSummary"];
      Call getSuggestionFromOpenAI [VString "continue"]]].
Proof.
  refine (conj eq_refl (conj eq_refl (conj eq_refl _))).
  exact (proj2 (continue_and_menu untranslated freshText
                  eq_refl eq_refl eq_refl)).
Defined.

Lemma mode_toggle_iff_freshImage :
  isMode (aiType freshImage) /\
  filter (calls setAiType) (toolbarControls (toolbar untranslated freshImage))
  = [ToolbarButton pencil (toggleAIType "image") "Ask AI to write"].
Proof.
  assert (M : isMode (aiType freshImage)) by (right; reflexivity).
  split; [exact M |].
  exact (proj1 (proj2 (proj2 (mode_toggle_iff untranslated freshImage M))
                  eq_refl eq_refl eq_refl)).
Defined.

Lemma enter_submits_while_waiting_streaming :
  isWaitingState streaming = true /\
  keyPress (AIControl untranslated streaming) (KeyboardEvent "Enter" false)
  = [preventDefault; Call handleGetSuggestion []] /\
  buttonsDisabled (AIControl untranslated streaming) = [true].
Proof.
  split; [reflexivity |].
  exact (proj2 (proj2 (proj2
           (enter_submits_while_waiting untranslated streaming))) eq_refl).
Defined.

Lemma toolbar_empty_while_animating_sample :
  aiType animating = "text" /\
  showRetry animating = false /\
  contentIsLoaded animating = true /\
  animationDone animating = false /\
  isWaitingState animating = false /\
  hasToolbar (AIControl untranslated animating) = true /\
  toolbarControls (AIControl untranslated animating) = [].
Proof.
  refine (conj eq_refl (conj eq_refl (conj eq_refl (conj eq_refl
            (conj eq_refl _))))).
  exact (proj2 (proj2 (toolbar_empty_while_animating untranslated
           animating eq_refl eq_refl eq_refl eq_refl)) eq_refl).
Defined.

End AIControlSamples.

(* ------------------------------------------------------------------ *)
(** ** Further properties of the AI Assistant control *)

Section AIControlBehaviour.
Import AIControl.
Variable __ : string -> string -> string.

Ltac split_props p :=
  destruct p as [ty ad ct cl ws li ph sr]; cbn [aiType animationDone content
    contentIsLoaded isWaitingState loadingImages placeholder showRetry] in *.

Lemma toggleAIType_text ev :
  toggleAIType "text" ev = [Call setAiType [VString "image"]].
Proof. reflexivity. Qed.

Lemma toggleAIType_other m ev :
  m <> "text" -> toggleAIType m ev = [Call setAiType [VString "text"]].
Proof.
  intros H. unfold toggleAIType. now rewrite (strict_eq_false _ _ H).
Qed.

(** X1.  With an [aiType] that is neither "text" nor "image" the toolbar
    holds no control in any state: at most an empty group is rendered
    where the mode toggle would be. *)
Theorem unknown_mode_no_controls (p : Props) :
  aiType p <> "text" ->
  aiType p <> "image" ->
  toolbar __ p
  = BlockControls
      (when (negb (showRetry p) && negb (contentIsLoaded p)) (ToolbarGroup [])) /\
  toolbarControls (toolbar __ p) = [].
Proof.
  unfold toolbar, ToolbarControls. split_props p. intros Ht Hi.
  rewrite (strict_eq_false _ _ Ht), (strict_eq_false _ _ Hi).
  destruct sr, cl; split; reflexivity.
Qed.

(** X2.  [toggleAIType] sends every value of [aiType] to a mode: to
    "image" exactly from "text", and to "text" from anything else.  A
    second toggle therefore comes back to the starting value only when
    that was a mode: from "text" it returns to "text", from anything
    else it ends on "image". *)
Theorem toggle_normalises (m : string) (ev : Event) :
  exists m',
    toggleAIType m ev = [Call setAiType [VString m']] /\
    isMode m' /\
    (m' = "image" <-> m = "text") /\
    (forall ev',
       toggleAIType m' ev'
       = [Call setAiType
            [VString (if strict_eq m "text" then "text" else "image")]]).
Proof.
  destruct (String.string_dec m "text") as [-> | H].
  - exists "image". repeat split. now right.
  - exists "text". rewrite (toggleAIType_other m ev H).
    rewrite (strict_eq_false _ _ H).
    repeat split; try discriminate.
    + now left.
    + intros E. now apply H in E.
Qed.

(** X3.  In image mode the toolbar offers nothing but the way back to
    text: its controls are the "Ask AI to write" toggle when [showRetry]
    and [contentIsLoaded] are both false and none otherwise, so no
    control there requests a suggestion, accepts content or retries. *)
Theorem image_mode_only_toggle (p : Props) :
  aiType p = "image" ->
  toolbarControls (toolbar __ p)
  = when (negb (showRetry p) && negb (contentIsLoaded p))
      (ToolbarButton pencil (toggleAIType "image")
         (__ "Ask AI to write" "jetpack")) /\
  (forall f, f <> setAiType ->
     existsb (calls f) (toolbarControls (toolbar __ p)) = false).
Proof.
  unfold toolbar. split_props p. intros ->.
  destruct sr, cl, ad; (split; [reflexivity |]);
    intros f Hf; destruct f; try reflexivity; now destruct Hf.
Qed.

(** X4.  Once [showRetry] is true the toolbar no longer depends on
    [contentIsLoaded] or [animationDone]: two sets of props in the same
    mode render the same toolbar. *)
Theorem retry_overrides (p q : Props) :
  showRetry p = true ->
  showRetry q = true ->
  aiType p = aiType q ->
  toolbar __ p = toolbar __ q.
Proof.
  unfold toolbar, ToolbarControls. intros -> -> ->.
  destruct (strict_eq (aiType q) "text"), (strict_eq (aiType q) "image");
    reflexivity.
Qed.

(** X5.  Until content is loaded [animationDone] has no effect on the
    toolbar. *)
Theorem animation_ignored_until_loaded (p q : Props) :
  contentIsLoaded p = false ->
  contentIsLoaded q = false ->
  showRetry p = showRetry q ->
  aiType p = aiType q ->
  toolbar __ p = toolbar __ q.
Proof.
  unfold toolbar, ToolbarControls. intros -> -> -> ->.
  destruct (strict_eq (aiType q) "text"), (strict_eq (aiType q) "image"),
    (showRetry q), (animationDone p), (animationDone q); reflexivity.
Qed.

(** X6.  While a request is in flight the whole rendered tree depends
    only on whether any content has arrived and on [loadingImages]:
    mode, retry and animation flags, the loaded flag and the
    placeholder prop are all ignored. *)
Theorem waiting_view_ignores_toolbar_flags (p q : Props) :
  isWaitingState p = true ->
  isWaitingState q = true ->
  falsy (content p) = falsy (content q) ->
  loadingImages p = loadingImages q ->
  AIControl __ p = AIControl __ q.
Proof.
  unfold AIControl. intros -> -> -> ->. reflexivity.
Qed.

(** X7.  The loading indicator is shown exactly when a request is in
    flight with no content yet, or images are loading; it is never
    shown twice, and with [loadingImages] set outside a request it is
    shown together with the toolbar. *)
Theorem loading_indicator_iff (p : Props) :
  hasLoading (AIControl __ p)
  = (falsy (content p) && isWaitingState p) || loadingImages p /\
  length (filter isLoading (nodes (AIControl __ p))) <= 1 /\
  (isWaitingState p = false -> loadingImages p = true ->
   hasLoading (AIControl __ p) = true /\ hasToolbar (AIControl __ p) = true).
Proof.
  unfold hasLoading, hasToolbar, AIControl, toolbar, ToolbarControls.
  split_props p.
  destruct ws, (strict_eq ty "text"), (strict_eq ty "image"), sr, cl, ad,
      (falsy ct), li; cbn; repeat split; intros;
    try reflexivity; try discriminate; lia.
Qed.

(** X8.  The arrow button submits with a single argument-free call of
    [handleGetSuggestion] unless a request is in flight, when it does
    nothing; Enter issues that same call in every state; the only
    toolbar control reaching [handleGetSuggestion] hands it the click
    event instead. *)
Theorem submit_paths (p : Props) :
  pressButtons (AIControl __ p)
  = when (negb (isWaitingState p)) (Call handleGetSuggestion []) /\
  filter (isCallOf handleGetSuggestion)
         (keyPress (AIControl __ p) (KeyboardEvent "Enter" false))
  = [Call handleGetSuggestion []] /\
  (forall e, In e (toolbarControls (toolbar __ p)) ->
     calls handleGetSuggestion e = true ->
     clickEffects e = [Call handleGetSuggestion [VEvent ClickEvent]]).
Proof.
  split; [| split].
  - unfold pressButtons, AIControl, toolbar, ToolbarControls. split_props p.
    destruct ws, (strict_eq ty "text"), (strict_eq ty "image"), sr, cl, ad,
      (falsy ct), li; reflexivity.
  - unfold keyPress, AIControl, toolbar, ToolbarControls. split_props p.
    destruct ws, (strict_eq ty "text"), (strict_eq ty "image"), sr, cl, ad,
      (falsy ct), li; reflexivity.
  - unfold toolbarControls, toolbar, ToolbarControls, toggleAIType.
    split_props p. intros e He Hc.
    destruct (strict_eq ty "text"), (strict_eq ty "image"), sr, cl, ad;
      cbn in He;
      repeat match goal with
             | H : _ \/ _ |- _ => destruct H
             | H : False |- _ => destruct H
             end;
      subst e; try reflexivity; cbn in Hc; discriminate Hc.
Qed.

(** X9.  In every state there is exactly one text area; typing into it
    calls [setUserPrompt] with the typed value and nothing else, and its
    placeholder is "AI writing" while a request is in flight and the
    [placeholder] prop otherwise. *)
Theorem typing_forwards_value (p : Props) (value : string) :
  typeText (AIControl __ p) value = [Call setUserPrompt [VString value]] /\
  placeholders (AIControl __ p)
  = [if isWaitingState p then __ "AI writing" "jetpack" else placeholder p].
Proof.
  unfold typeText, placeholders, AIControl, toolbar, ToolbarControls.
  split_props p.
  destruct ws, (strict_eq ty "text"), (strict_eq ty "image"), sr, cl, ad,
    (falsy ct), li; split; reflexivity.
Qed.

End AIControlBehaviour.

(* ------------------------------------------------------------------ *)
(** ** Further properties of the Resource Prompt *)

Section ResourcePromptBehaviour.
Import ResourcePrompt.
Variable __ : string -> string -> string.


(** X11.  The four handlers record under four different event names,
    which do not depend on the props. *)
Theorem event_names_distinct (p q : Props) :
  NoDup (flat_map eventNames
           [onExternalLinkClick p; onResourceLinkClick p;
            onResourceSkipClick p; onBackToSummaryClick p]) /\
  flat_map eventNames
    [onExternalLinkClick p; onResourceLinkClick p;
     onResourceSkipClick p; onBackToSummaryClick p]
  = flat_map eventNames
      [onExternalLinkClick q; onResourceLinkClick q;
       onResourceSkipClick q; onBackToSummaryClick q].
Proof.
  split; [| reflexivity]. cbn.
  repeat constructor; cbn; intuition discriminate.
Qed.

End ResourcePromptBehaviour.

(* ------------------------------------------------------------------ *)
(** ** The effect hook across renders *)

Section LifecycleFacts.
Import ResourcePrompt Lifecycle.

Lemma effect_at_most_one p : length (effect p) <= 1.
Proof.
  destruct (String.string_dec (stepSlug p) (stateStepSlug p)) as [E | N].
  - rewrite (effect_same p E). destruct (updatingStep p); simpl; lia.
  - rewrite (effect_differs p N). simpl; lia.
Qed.

Lemma effect_justified p c :
  In c (effect p) ->
  (c = updateRecommendationsStep (stepSlug p) /\
   stepSlug p <> stateStepSlug p) \/
  (c = addViewedRecommendation (stepSlug p) /\
   stepSlug p = stateStepSlug p /\ updatingStep p = false).
Proof.
  destruct (String.string_dec (stepSlug p) (stateStepSlug p)) as [E | N].
  - rewrite (effect_same p E). destruct (updatingStep p) eqn:U; simpl.
    + tauto.
    + intros [<- | []]. right. auto.
  - rewrite (effect_differs p N). simpl. intros [<- | []]. left. auto.
Qed.

Lemma sameDeps_spec a b :
  sameDeps a b = true <->
  stepSlug (props a) = stepSlug (props b) /\
  stateStepSlug (props a) = stateStepSlug (props b) /\
  updatingStep (props a) = updatingStep (props b) /\
  updateRecommendationsStepRef a = updateRecommendationsStepRef b /\
  addViewedRecommendationRef a = addViewedRecommendationRef b.
Proof.
  unfold sameDeps, strict_eq.
  rewrite !andb_true_iff, !String.eqb_eq, !Nat.eqb_eq, Bool.eqb_true_iff.
  tauto.
Qed.

Lemma sameDeps_chain r a b :
  sameDeps r a = true -> sameDeps r b = true -> sameDeps a b = true.
Proof.
  rewrite !sameDeps_spec.
  intros (A1 & A2 & A3 & A4 & A5) (B1 & B2 & B3 & B4 & B5).
  repeat split; congruence.
Qed.

Lemma commits_silent r :
  forall rs q,
    sameDeps r q = true ->
    Forall (fun x => sameDeps r x = true) rs ->
    commits (Some q) rs = [].
Proof.
  induction rs as [| x rs IH]; intros q Hq Hall; [reflexivity |].
  inversion Hall as [| ? ? Hx Hrest]; subst.
  cbn [commits]. rewrite (sameDeps_chain r q x Hq Hx). simpl.
  now apply IH.
Qed.

Lemma sameDeps_refl r : sameDeps r r = true.
Proof. apply sameDeps_spec. repeat split. Qed.

(** X12.  Renders that leave the dependency list unchanged do not run
    the effect again: over a mount followed by any number of such
    renders, the commands issued are those of the mount alone, whatever
    else changed in the props. *)
Theorem rerender_same_deps_silent (r : Render) (rs : list Render) :
  Forall (fun x => sameDeps r x = true) rs ->
  commits None (r :: rs) = effect (props r).
Proof.
  intros Hall. cbn [commits].
  rewrite (commits_silent r rs r (sameDeps_refl r) Hall).
  apply app_nil_r.
Qed.

(** X13.  Over any sequence of renders the effect issues at most one
    command per render, and each command is accounted for by a render of
    the sequence: a step-change names the slug of a render whose slug
    differed from the tracked one; a viewed command names the slug of a
    render whose slug was the tracked one with no update in flight. *)
Theorem commits_accounted (prev : option Render) (rs : list Render) :
  length (commits prev rs) <= length rs /\
  (forall c, In c (commits prev rs) ->
     exists r, In r rs /\
       ((c = updateRecommendationsStep (stepSlug (props r)) /\
         stepSlug (props r) <> stateStepSlug (props r)) \/
        (c = addViewedRecommendation (stepSlug (props r)) /\
         stepSlug (props r) = stateStepSlug (props r) /\
         updatingStep (props r) = false))).
Proof.
  revert prev. induction rs as [| r rs IH]; intros prev.
  - split; [simpl; lia | intros c []].
  - destruct (IH (Some r)) as [Hlen Hin]. cbn [commits]. split.
    + rewrite length_app. pose proof (effect_at_most_one (props r)).
      destruct prev as [q |]; [destruct (sameDeps q r) |]; simpl in *; lia.
    + intros c Hc. apply in_app_or in Hc as [Hc | Hc].
      * exists r. split; [now left |]. apply effect_justified.
        destruct prev as [q |]; [destruct (sameDeps q r) |];
          [destruct Hc | exact Hc | exact Hc].
      * destruct (Hin c Hc) as (x & Hx & Hj). exists x.
        split; [now right | exact Hj].
Qed.

(** X14.  A step change, seen through the hook.  When the store adopts
    the new step at once and signals the update as in flight, the mount
    issues the step-change, the in-flight render is silent and the
    settled render reports the view: two commands in all.  When the
    tracked step still differs as [updatingStep] turns true, the
    step-change is issued a second time. *)
Theorem step_change_flow (slug old : string) :
  slug <> old ->
  commits None [renderOf slug old false; renderOf slug slug true;
                renderOf slug slug false]
  = [updateRecommendationsStep slug; addViewedRecommendation slug] /\
  commits None [renderOf slug old false; renderOf slug old true]
  = [updateRecommendationsStep slug; updateRecommendationsStep slug].
Proof.
  intros H.
  assert (N : strict_eq slug old = false) by now apply String.eqb_neq.
  assert (N' : strict_eq old slug = false)
    by (apply String.eqb_neq; congruence).
  assert (R : strict_eq slug slug = true) by apply String.eqb_refl.
  assert (R' : strict_eq old old = true) by apply String.eqb_refl.
  unfold commits, sameDeps, renderOf, effect, strict_neq, strict_eq in *.
  cbn. rewrite ?N, ?N', ?R, ?R'. cbn. split; reflexivity.
Qed.

End LifecycleFacts.

(* ------------------------------------------------------------------ *)
(** ** The props handed to [PromptLayout] *)

Section PromptViewFacts.
Import ResourcePrompt PromptView.
Variable __ : string -> string -> string.

(** X15.  The layout never gets both an illustration and a sidebar
    card: with a non-empty [spotlightProduct] the card is the spotlight
    of that product for this step and the illustration is withheld;
    otherwise there is no card and [illustrationPath] is passed on. *)
Theorem illustration_or_spotlight (p : Props) (v : ViewProps) :
  (sidebarCard (ResourcePromptComponent __ p v) = None \/
   layoutIllustrationPath (ResourcePromptComponent __ p v) = None) /\
  (forall slug, spotlightProduct v = Some slug -> slug <> "" ->
     sidebarCard (ResourcePromptComponent __ p v)
     = Some (ProductSpotlight slug (stepSlug p)) /\
     layoutIllustrationPath (ResourcePromptComponent __ p v) = None) /\
  (Js.truthyString (spotlightProduct v) = false ->
     sidebarCard (ResourcePromptComponent __ p v) = None /\
     layoutIllustrationPath (ResourcePromptComponent __ p v)
     = illustrationPath v).
Proof.
  unfold ResourcePromptComponent, Js.truthyString, strict_eq. cbn.
  destruct (spotlightProduct v) as [slug |]; cbn.
  - destruct (String.eqb_spec slug "") as [-> | Hne]; cbn;
      (split; [| split]).
    + now left.
    + intros s [= <-] Hs. now destruct Hs.
    + intros _. now split.
    + now right.
    + intros s [= <-] _. now split.
    + discriminate.
  - split; [| split].
    + now left.
    + discriminate.
    + intros _. now split.
Qed.

(** X16.  The [content] attribute is [null] exactly when there is no
    description list and no non-empty secondary description.  A list
    that is present is rendered as one list element holding its items in
    order, an empty list as an empty list element; the secondary
    description is shown as a paragraph only when it is non-empty. *)
Theorem content_rendering (p : Props) (v : ViewProps) :
  (content (ResourcePromptComponent __ p v) = None
     <-> descriptionList v = None /\
         Js.truthyString (descriptionSecondary v) = false) /\
  (forall items, descriptionList v = Some items ->
     exists n, content (ResourcePromptComponent __ p v) = Some n /\
               listItems n = items /\
               lists n = [Ul "jp-recommendations-question__description-list"
                             (map Li items)]) /\
  (forall n, content (ResourcePromptComponent __ p v) = Some n ->
     paragraphs n = match descriptionSecondary v with
                    | Some text => when (negb (strict_eq text "")) text
                    | None => []
                    end).
Proof.
  assert (Items : forall items : list string,
             flat_map listItems (map Li items) = items).
  { induction items as [| i items IH]; [reflexivity |].
    cbn. now rewrite IH. }
  unfold ResourcePromptComponent, Js.truthyString. cbn.
  destruct (descriptionList v) as [items |];
    destruct (descriptionSecondary v) as [text |]; cbn;
    try destruct (strict_eq text ""); cbn; repeat split;
    try discriminate; try tauto;
    try (intros [H1 H2]; discriminate);
    try (intros ? [= <-]; eexists; repeat split;
         cbn; now rewrite ?app_nil_r, ?Items);
    try (intros ? [= <-]; reflexivity).
Qed.


End PromptViewFacts.

(* ------------------------------------------------------------------ *)
(** ** [connect]: which source a prop comes from *)

Section ConnectFacts.
Import Connect.
Variable State : Type.
Variable getNextRoute : State -> Js.Value.
Variable getStepContent : Js.Value -> Js.Obj.
Variable getStep : State -> Js.Value.
Variable isUpdatingRecommendationsStep : State -> Js.Value.
Variable isStepViewed : State -> string -> Js.Value.
Variable getProductSlugForStep : State -> Js.Value -> Js.Value.

Lemma getProp_spread k src o :
  Js.getProp k (Js.spread src o)
  = match Js.getProp k src with
    | Some v => Some v
    | None => Js.getProp k o
    end.
Proof.
  unfold Js.spread. induction src as [| [k' v] src IH]; [reflexivity |].
  cbn. destruct (strict_eq k k'); [reflexivity | exact IH].
Qed.

(** X18.  Where each prop computed by [mapStateToProps] comes from, for
    every key: [stateStepSlug], [updatingStep], [summaryViewed] and
    [spotlightProduct] always come from the store, whatever the step
    content holds; any other key comes from the step content when it
    has one; [nextRoute] falls back to the store's route; and nothing
    else is defined. *)
Theorem mapStateToProps_precedence (state : State) (ownProps : Js.Obj)
    (k : string) :
  Js.getProp k
    (mapStateToProps State getNextRoute getStepContent getStep
       isUpdatingRecommendationsStep isStepViewed getProductSlugForStep
       state ownProps)
  = if strict_eq k "spotlightProduct" then
      Some (getProductSlugForStep state (Js.member ownProps "stepSlug"))
    else if strict_eq k "summaryViewed" then
      Some (isStepViewed state "summary")
    else if strict_eq k "updatingStep" then
      Some (isUpdatingRecommendationsStep state)
    else if strict_eq k "stateStepSlug" then
      Some (getStep state)
    else match Js.getProp k (getStepContent (Js.member ownProps "stepSlug")) with
         | Some v => Some v
         | None => if strict_eq k "nextRoute"
                   then Some (getNextRoute state) else None
         end.
Proof.
  unfold mapStateToProps, Js.setProp.
  cbn [Js.getProp].
  destruct (strict_eq k "spotlightProduct"); [reflexivity |].
  destruct (strict_eq k "summaryViewed"); [reflexivity |].
  destruct (strict_eq k "updatingStep"); [reflexivity |].
  destruct (strict_eq k "stateStepSlug"); [reflexivity |].
  rewrite getProp_spread. reflexivity.
Qed.

End ConnectFacts.

(* ------------------------------------------------------------------ *)
(** ** The further theorems at sample props *)

Section AIControlBehaviourSamples.
Import AIControl.

Lemma unknown_mode_no_controls_video :
  aiType unknownMode <> "text" /\
  aiType unknownMode <> "image" /\
  toolbar untranslated unknownMode = BlockControls [ToolbarGroup []] /\
  toolbarControls (toolbar untranslated unknownMode) = [].
Proof.
  assert (T : aiType unknownMode <> "text") by discriminate.
  assert (I : aiType unknownMode <> "image") by discriminate.
  exact (conj T (conj I (unknown_mode_no_controls untranslated unknownMode T I))).
Defined.

Lemma image_mode_only_toggle_imagesLoading :
  aiType imagesLoading = "image" /\
  toolbarControls (toolbar untranslated imagesLoading)
  = [ToolbarButton pencil (toggleAIType "image") "Ask AI to write"].
Proof.
  exact (conj eq_refl
           (proj1 (image_mode_only_toggle untranslated imagesLoading eq_refl))).
Defined.

Lemma retry_overrides_textRetry :
  showRetry textRetry = true /\
  showRetry (mkProps "text" true "Once" true false false "Write" true) = true /\
  toolbar untranslated textRetry
  = toolbar untranslated
      (mkProps "text" true "Once" true false false "Write" true).
Proof.
  exact (conj eq_refl (conj eq_refl
           (retry_overrides untranslated textRetry
              (mkProps "text" true "Once" true false false "Write" true)
              eq_refl eq_refl eq_refl))).
Defined.

Lemma animation_ignored_until_loaded_freshText :
  contentIsLoaded freshText = false /\
  toolbar untranslated freshText
  = toolbar untranslated
      (mkProps "text" true "" false false false "Ask AI" false).
Proof.
  exact (conj eq_refl
           (animation_ignored_until_loaded untranslated freshText
              (mkProps "text" true "" false false false "Ask AI" false)
              eq_refl eq_refl eq_refl eq_refl)).
Defined.

Lemma waiting_view_ignores_toolbar_flags_streaming :
  isWaitingState streaming = true /\
  AIControl untranslated streaming
  = AIControl untranslated
      (mkProps "image" true "A cat" true true false "Draw" true).
Proof.
  exact (conj eq_refl
           (waiting_view_ignores_toolbar_flags untranslated streaming
              (mkProps "image" true "A cat" true true false "Draw" true)
              eq_refl eq_refl eq_refl eq_refl)).
Defined.

End AIControlBehaviourSamples.

Section LifecycleSamples.
Import ResourcePrompt Lifecycle.

Lemma rerender_same_deps_silent_twice :
  Forall (fun x => sameDeps (renderOf "A" "A" false) x = true)
    [renderOf "A" "A" false; renderOf "A" "A" false] /\
  commits None [renderOf "A" "A" false; renderOf "A" "A" false;
                renderOf "A" "A" false]
  = [addViewedRecommendation "A"].
Proof.
  assert (S : Forall (fun x => sameDeps (renderOf "A" "A" false) x = true)
                [renderOf "A" "A" false; renderOf "A" "A" false])
    by (repeat constructor).
  exact (conj S (rerender_same_deps_silent (renderOf "A" "A" false) _ S)).
Defined.

Lemma step_change_flow_A_B :
  "A" <> "B" /\
  commits None [renderOf "A" "B" false; renderOf "A" "A" true;
                renderOf "A" "A" false]
  = [updateRecommendationsStep "A"; addViewedRecommendation "A"].
Proof.
  assert (N : "A" <> "B") by discriminate.
  exact (conj N (proj1 (step_change_flow "A" "B" N))).
Defined.

End LifecycleSamples.
